(** * DobbyCaption: the two-stage caption pipeline of [src/App.tsx]

    A shallow embedding of the asynchronous functions of the [App]
    component ([fileToBase64], [analyzeImageWithQwen],
    [generateCaptionWithDobby], [handleGenerate]), of its file handler
    ([onFileChange]) and of the state-dependent parts of the page it
    renders, and the properties of the pipeline they form.

    The functions are written in a small monad that reads the
    environment of the page (configuration, file reader, network),
    threads the component state together with a log of the interactions
    with that environment, and propagates thrown values.  An [await] is a
    bind of that monad: one run of [handleGenerate] is modelled from its
    start to its completion, with no other handler interleaved, and every
    promise of the environment settles (it resolves or rejects). *)

From Stdlib Require Import String Ascii List Bool PrimFloat DecimalString.
Import ListNotations.
Open Scope string_scope.
Set Warnings "-inexact-float,-register-all".

(** ** JavaScript values *)

(** The values a parsed JSON body is made of, plus [undefined].  Numbers
    are binary64 floats, as in JavaScript. *)
Inductive value : Type :=
| JUndefined
| JNull
| JBool (b : bool)
| JNum (n : float)
| JStr (s : string)
| JArr (items : list value)
| JObj (fields : list (string * value)).

(** A property key: [v.name] or [v[i]]. *)
Inductive key : Type :=
| Name (s : string)
| Index (i : nat).

Definition index_name (i : nat) : string :=
  NilEmpty.string_of_uint (Nat.to_uint i).

Definition key_name (k : key) : string :=
  match k with
  | Name s => s
  | Index i => index_name i
  end.

(** The first binding of a name in an object is the property's value. *)
Fixpoint assoc (k : string) (fs : list (string * value)) : option value :=
  match fs with
  | [] => None
  | (k', v) :: fs' => if String.eqb k k' then Some v else assoc k fs'
  end.

(** Own property of a value that is neither [null] nor [undefined].  The
    program reads only the names [choices], [message], [content] and the
    index [0]; none of them is a property of a prototype, so a read that
    finds no own property yields [undefined]. *)
Definition get_own (v : value) (k : key) : option value :=
  match v, k with
  | JObj fs, _ => assoc (key_name k) fs
  | JArr xs, Index i => nth_error xs i
  | JStr s, Index i =>
      option_map (fun c => JStr (String c EmptyString)) (String.get i s)
  | _, _ => None
  end.

Definition get (v : value) (k : key) : value :=
  match get_own v k with
  | Some x => x
  | None => JUndefined
  end.

Definition nullish (v : value) : bool :=
  match v with
  | JUndefined | JNull => true
  | _ => false
  end.

(** ToBoolean. *)
Definition truthy (v : value) : bool :=
  match v with
  | JUndefined | JNull => false
  | JBool b => b
  | JNum n => negb (PrimFloat.eqb n 0) && PrimFloat.eqb n n
  | JStr s => negb (String.eqb s "")
  | JArr _ | JObj _ => true
  end.

(** [a || b] and [a ?? b]. *)
Definition or_else (a b : value) : value := if truthy a then a else b.
Definition coalesce (a b : value) : value := if nullish a then b else a.

(** [v?.k]: [undefined] when [v] is [null] or [undefined]. *)
Definition opt (v : value) (k : key) : value :=
  if nullish v then JUndefined else get v k.

(** ** Thrown values *)

(** Every value this program throws or catches is an object; the only
    thing read from it is [message], which is a string or, for the
    event a [FileReader] fails with, [undefined]. *)
Record exn : Type := Thrown { message : option string }.

(** [new Error(msg)]. *)
Definition Error (msg : string) : exn := Thrown (Some msg).

(** The [TypeError] of the engine. *)
Definition TypeError (msg : string) : exn := Thrown (Some msg).

(** The text [error.message] contributes to a string concatenation. *)
Definition message_text (m : option string) : string :=
  match m with
  | Some s => s
  | None => "undefined"
  end.

(** ** Requests, responses and the environment *)

Record File : Type := {
  file_name : string;
  file_type : string;
  file_bytes : list Byte.byte
}.

Record Message : Type := { role : string; content : value }.

(** The object handed to [JSON.stringify] as the body of a request. *)
Record Payload : Type := {
  model : string;
  max_tokens : float;
  top_p : float;
  top_k : float;
  presence_penalty : float;
  frequency_penalty : float;
  temperature : float;
  messages : list Message
}.

Record Request : Type := {
  url : string;
  method : string;
  headers : list (string * string);
  body : Payload
}.

(** What the program can observe of a response: [response.ok],
    [response.statusText], and the results of [response.text()] and
    [response.json()], each of which may reject. *)
Record Response : Type := {
  ok : bool;
  statusText : string;
  text : exn + string;
  json : exn + value
}.

Record World : Type := {
  (** [import.meta.env]: a name is bound to a string or is undefined. *)
  env : string -> option string;
  (** [FileReader.readAsDataURL]: [onload] with the data URL, or
      [onerror]. *)
  readAsDataURL : File -> exn + string;
  (** [fetch]: a response of any status, or a rejection. *)
  fetch : Request -> exn + Response;
  (** The text of the engine's [TypeError] for reading a property of
      [null] or [undefined]. *)
  cannot_read : value -> string -> string
}.

(** ** Component state and the interaction log *)

Record State : Type := {
  imagePreview : string;
  imageFile : option File;
  caption : value;
  loading : bool;
  tone : string
}.

Inductive event : Type :=
| EnvRead (name : string)
| FileRead (f : File)
| Fetch (r : Request).

Record Store : Type := { ui : State; log : list event }.

Definition initial : State :=
  {| imagePreview := ""; imageFile := None; caption := JStr "";
     loading := false; tone := "witty" |}.

Definition tones : list (string * string) :=
  [ ("witty", "Witty"); ("brutal", "Brutal");
    ("sarcastic", "Sarcastic"); ("friendly", "Friendly") ].

(** ** The monad *)

Definition M (A : Type) : Type := World -> Store -> Store * (exn + A).

Definition ret {A} (a : A) : M A := fun _ st => (st, inr a).

Definition bind {A B} (m : M A) (k : A -> M B) : M B :=
  fun w st =>
    match m w st with
    | (st', inr a) => k a w st'
    | (st', inl e) => (st', inl e)
    end.

Definition throw {A} (e : exn) : M A := fun _ st => (st, inl e).

Definition try_catch {A} (m : M A) (h : exn -> M A) : M A :=
  fun w st =>
    match m w st with
    | (st', inr a) => (st', inr a)
    | (st', inl e) => h e w st'
    end.

(** Settle a promise of the environment. *)
Definition settle {A} (r : exn + A) : M A := fun _ st => (st, r).

Definition record (e : event) : M unit :=
  fun _ st => ({| ui := ui st; log := log st ++ [e] |}, inr tt).

Declare Scope js_scope.
Delimit Scope js_scope with js.
Notation "x <- m ;; k" := (bind m (fun x => k))
  (at level 61, m at next level, right associativity) : js_scope.
Notation "m ;;; k" := (bind m (fun _ => k))
  (at level 61, right associativity) : js_scope.
Open Scope js_scope.

(** ** Primitive interactions *)

Definition import_meta_env (name : string) : M (option string) :=
  record (EnvRead name) ;;;
  fun w st => (st, inr (env w name)).

Definition do_fetch (r : Request) : M Response :=
  record (Fetch r) ;;;
  fun w st => (st, fetch w r).

(** [v.k]: throws a [TypeError] when [v] is [null] or [undefined]. *)
Definition member (v : value) (k : key) : M value :=
  fun w st =>
    if nullish v then (st, inl (TypeError (cannot_read w v (key_name k))))
    else (st, inr (get v k)).

Definition setCaption (v : value) : M unit :=
  fun _ st =>
    ({| ui := {| imagePreview := imagePreview (ui st);
                 imageFile := imageFile (ui st);
                 caption := v;
                 loading := loading (ui st);
                 tone := tone (ui st) |};
        log := log st |}, inr tt).

Definition setLoading (b : bool) : M unit :=
  fun _ st =>
    ({| ui := {| imagePreview := imagePreview (ui st);
                 imageFile := imageFile (ui st);
                 caption := caption (ui st);
                 loading := b;
                 tone := tone (ui st) |};
        log := log st |}, inr tt).

(** ** The functions of [App] *)

Definition fileToBase64 (file : File) : M string :=
  record (FileRead file) ;;;
  fun w st => (st, readAsDataURL w file).

Definition endpoint : string :=
  "https://api.fireworks.ai/inference/v1/chat/completions".

Definition request_headers (API_KEY : string) : list (string * string) :=
  [ ("Accept", "application/json");
    ("Content-Type", "application/json");
    ("Authorization", "Bearer " ++ API_KEY) ].

(** [data.choices?.[0]?.message?.content] *)
Definition first_content (data : value) : M value :=
  choices <- member data (Name "choices") ;;
  ret (opt (opt (opt choices (Index 0)) (Name "message")) (Name "content")).

Definition qwen_system : string :=
  "You are a visual captioning assistant. For the given image, summarize only the key subjects and salient objects or actions that define the main event or scene. Ignore minor background details. Keep description clear, concise, and focused on what stands out most.".

Definition qwen_model : string :=
  "accounts/fireworks/models/qwen2p5-vl-32b-instruct".

Definition qwen_payload (base64Image : string) : Payload :=
  {| model := qwen_model;
     max_tokens := 4096;
     top_p := 1;
     top_k := 40;
     presence_penalty := 0;
     frequency_penalty := 0;
     temperature := 0.6;
     messages :=
       [ {| role := "system"; content := JStr qwen_system |};
         {| role := "user"; content := JStr ("<image>" ++ base64Image) |} ] |}.

Definition qwen_request (API_KEY base64Image : string) : Request :=
  {| url := endpoint;
     method := "POST";
     headers := request_headers API_KEY;
     body := qwen_payload base64Image |}.

Definition description_fallback : string := "A visually interesting image".

Definition analyzeImageWithQwen (image : File) : M value :=
  API_KEY <- import_meta_env "VITE_QWEN_KEY" ;;
  match API_KEY with
  | None | Some EmptyString => throw (Error "Qwen API key is missing")
  | Some API_KEY =>
      base64Image <- fileToBase64 image ;;
      response <- do_fetch (qwen_request API_KEY base64Image) ;;
      if negb (ok response) then
        errorText <- settle (text response) ;;
        throw (Error ("Qwen API error: " ++ errorText))
      else
        data <- settle (json response) ;;
        c <- first_content data ;;
        ret (or_else c (JStr description_fallback))
  end.

Definition newline : string := String (ascii_of_nat 10) EmptyString.

Definition systemPrompt (tone : string) : string :=
  newline
  ++ "You are CaptionDobby. Given a visual scene description, create a "
  ++ tone ++ ", meme-worthy caption in 25 words or less." ++ newline
  ++ "Make it clever and instantly shareable." ++ newline.

Definition dobby_model : string :=
  "accounts/sentientfoundation-serverless/models/dobby-mini-unhinged-plus-llama-3-1-8b".

Definition dobby_payload (tone : string) (description : value) : Payload :=
  {| model := dobby_model;
     max_tokens := 4096;
     top_p := 1;
     top_k := 40;
     presence_penalty := 0;
     frequency_penalty := 0;
     temperature := 0.6;
     messages :=
       [ {| role := "system"; content := JStr (systemPrompt tone) |};
         {| role := "user"; content := description |} ] |}.

Definition dobby_request (API_KEY tone : string) (description : value)
  : Request :=
  {| url := endpoint;
     method := "POST";
     headers := request_headers API_KEY;
     body := dobby_payload tone description |}.

Definition caption_fallback : string := "No caption generated.".

(** [tone] is the component state the closure was created with. *)
Definition generateCaptionWithDobby (tone : string) (description : value)
  : M value :=
  API_KEY <- import_meta_env "VITE_DOBBY_KEY" ;;
  match API_KEY with
  | None | Some EmptyString => throw (Error "Dobby API key is missing")
  | Some API_KEY =>
      response <- do_fetch (dobby_request API_KEY tone description) ;;
      if negb (ok response) then
        throw (Error ("Dobby API error: " ++ statusText response))
      else
        data <- settle (json response) ;;
        c <- first_content data ;;
        ret (coalesce c (JStr caption_fallback))
  end.

(** The body of the [try] block of [handleGenerate]. *)
Definition stages (imageFile : File) (tone : string) : M value :=
  description <- analyzeImageWithQwen imageFile ;;
  generateCaptionWithDobby tone description.

(** [snap] is the state of the render whose handler is invoked. *)
Definition handleGenerate (snap : State) : M unit :=
  match imageFile snap with
  | None => ret tt
  | Some imageFile =>
      setLoading true ;;;
      setCaption (JStr "") ;;;
      try_catch
        (caption <- stages imageFile (tone snap) ;;
         setCaption caption)
        (fun error => setCaption (JStr ("Error: " ++ message_text (message error)))) ;;;
      setLoading false
  end.

(** One click on the trigger in state [s]: the store when the handler
    has completed. *)
Definition click (w : World) (s : State) : Store :=
  fst (handleGenerate s w {| ui := s; log := [] |}).

(** ** Derived notions *)

(** The requests of a log, in the order they were sent. *)
Fixpoint fetches (l : list event) : list Request :=
  match l with
  | [] => []
  | Fetch r :: l' => r :: fetches l'
  | _ :: l' => fetches l'
  end.

(** The Caption Client starts by reading its credential and sends its
    request to its own model. *)
Definition is_caption_event (e : event) : bool :=
  match e with
  | EnvRead name => String.eqb name "VITE_DOBBY_KEY"
  | FileRead _ => false
  | Fetch r => String.eqb (model (body r)) dobby_model
  end.

Definition is_description_request (r : Request) : bool :=
  String.eqb (model (body r)) qwen_model.

(** A credential is absent when [!API_KEY] holds. *)
Definition absent (k : option string) : Prop := k = None \/ k = Some "".

(** A store whose state no client looks at, to run a client on its own. *)
Definition fresh : Store := {| ui := initial; log := [] |}.

Definition run_fresh {A} (m : M A) (w : World) : list event * (exn + A) :=
  (log (fst (m w fresh)), snd (m w fresh)).

(** Computations that leave the component state alone: they extend the
    log and return, the same way from every store. *)
Definition observer {A} (m : M A) : Prop :=
  forall w st,
    m w st = ({| ui := ui st; log := log st ++ fst (run_fresh m w) |},
              snd (run_fresh m w)).

Definition description_log (w : World) (f : File) : list event :=
  fst (run_fresh (analyzeImageWithQwen f) w).
Definition description_result (w : World) (f : File) : exn + value :=
  snd (run_fresh (analyzeImageWithQwen f) w).
Definition caption_log (w : World) (t : string) (d : value) : list event :=
  fst (run_fresh (generateCaptionWithDobby t d) w).
Definition caption_result (w : World) (t : string) (d : value) : exn + value :=
  snd (run_fresh (generateCaptionWithDobby t d) w).

(** The description request reaches its endpoint, which answers [r]. *)
Definition description_endpoint_returns (w : World) (f : File) (r : Response)
  : Prop :=
  exists k b64,
    env w "VITE_QWEN_KEY" = Some k /\ k <> "" /\
    readAsDataURL w f = inr b64 /\
    fetch w (qwen_request k b64) = inr r.

(** The caption request for [d] in tone [t] reaches its endpoint, which
    answers [r]. *)
Definition caption_endpoint_returns (w : World) (t : string) (d : value)
  (r : Response) : Prop :=
  exists k,
    env w "VITE_DOBBY_KEY" = Some k /\ k <> "" /\
    fetch w (dobby_request k t d) = inr r.

(** The two terminal states of a run on image [f] in tone [t]. *)
Definition succeeded (w : World) (f : File) (t : string) (c : value) : Prop :=
  exists d, description_result w f = inr d /\ caption_result w t d = inr c.

Definition failed (w : World) (f : File) (t : string) (e : exn) : Prop :=
  description_result w f = inl e \/
  exists d, description_result w f = inr d /\ caption_result w t d = inl e.

(** What the output area holds once the [try] statement is over. *)
Definition shown (r : exn + value) : value :=
  match r with
  | inr c => c
  | inl e => JStr ("Error: " ++ message_text (message e))
  end.

Definition finish (s : State) (v : value) : State :=
  {| imagePreview := imagePreview s; imageFile := imageFile s;
     caption := v; loading := false; tone := tone s |}.

Definition with_tone (t : string) (s : State) : State :=
  {| imagePreview := imagePreview s; imageFile := imageFile s;
     caption := caption s; loading := loading s; tone := t |}.

(** The path [choices[0].message.content] and the value found by
    following a path through own properties. *)
Definition content_path : list key :=
  [Name "choices"; Index 0; Name "message"; Name "content"].

Fixpoint at_path (v : value) (ks : list key) : option value :=
  match ks with
  | [] => Some v
  | k :: ks' =>
      match get_own v k with
      | Some v' => at_path v' ks'
      | None => None
      end
  end.

(** The sampling parameters of a payload. *)
Definition sampling (p : Payload) : list (string * float) :=
  [ ("max_tokens", max_tokens p); ("top_p", top_p p); ("top_k", top_k p);
    ("presence_penalty", presence_penalty p);
    ("frequency_penalty", frequency_penalty p);
    ("temperature", temperature p) ].

(** A request with the content of its first message blanked. *)
Definition erase_system_content (r : Request) : Request :=
  {| url := url r; method := method r; headers := headers r;
     body :=
       {| model := model (body r);
          max_tokens := max_tokens (body r);
          top_p := top_p (body r);
          top_k := top_k (body r);
          presence_penalty := presence_penalty (body r);
          frequency_penalty := frequency_penalty (body r);
          temperature := temperature (body r);
          messages :=
            match messages (body r) with
            | [] => []
            | m :: ms => {| role := role m; content := JUndefined |} :: ms
            end |} |}.

(** What the chain [data.choices?.[0]?.message?.content] evaluates to. *)
Definition content_of (w : World) (data : value) : exn + value :=
  if nullish data then inl (TypeError (cannot_read w data "choices"))
  else inr (opt (opt (opt (get data (Name "choices")) (Index 0))
                  (Name "message")) (Name "content")).

(** What each client makes of the response it receives; the lemmas
    [description_run] and [caption_run] show that this is what the code
    does. *)
Definition description_from (w : World) (r : Response) : exn + value :=
  if negb (ok r) then
    match text r with
    | inl e => inl e
    | inr errorText => inl (Error ("Qwen API error: " ++ errorText))
    end
  else
    match json r with
    | inl e => inl e
    | inr data =>
        match content_of w data with
        | inl e => inl e
        | inr c => inr (or_else c (JStr description_fallback))
        end
    end.

Definition caption_from (w : World) (r : Response) : exn + value :=
  if negb (ok r) then inl (Error ("Dobby API error: " ++ statusText r))
  else
    match json r with
    | inl e => inl e
    | inr data =>
        match content_of w data with
        | inl e => inl e
        | inr c => inr (coalesce c (JStr caption_fallback))
        end
    end.

(** The description stage fails hard: its credential is absent, or its
    endpoint answers with a status that is not a success. *)
Definition description_fails_hard (w : World) (f : File) : Prop :=
  absent (env w "VITE_QWEN_KEY") \/
  exists r, description_endpoint_returns w f r /\ ok r = false.

Definition fixed_sampling (p : Payload) : Prop :=
  sampling p =
  [ ("max_tokens", 4096%float); ("top_p", 1%float); ("top_k", 40%float);
    ("presence_penalty", 0%float); ("frequency_penalty", 0%float);
    ("temperature", 0.6%float) ].

(** ** Sample environments *)

Definition photo : File :=
  {| file_name := "cat.png"; file_type := "image/png";
     file_bytes := [Byte.x89; Byte.x50; Byte.x4e; Byte.x47] |}.

Definition with_photo : State :=
  {| imagePreview := "blob:cat"; imageFile := Some photo;
     caption := JStr ""; loading := false; tone := "brutal" |}.

(** A response of status 200 whose body parses to [data]. *)
Definition reply (data : value) : Response :=
  {| ok := true; statusText := "OK"; text := inr ""; json := inr data |}.

(** A response of status 500 with body [b]. *)
Definition refusal (b : string) : Response :=
  {| ok := false; statusText := "Internal Server Error"; text := inr b;
     json := inl (Thrown (Some "Unexpected token")) |}.

(** A chat completion with one choice. *)
Definition completion (c : value) : value :=
  JObj [ ("id", JStr "cmpl-1");
         ("choices",
           JArr [ JObj [ ("index", JNum 0);
                         ("message",
                           JObj [ ("role", JStr "assistant");
                                  ("content", c) ]) ] ]) ].

(** An environment with the given credentials, in which every file
    reads and each endpoint has one answer. *)
Definition sample_world (qwen_key dobby_key : option string)
  (description_answer caption_answer : exn + Response) : World :=
  {| env := fun name =>
       if String.eqb name "VITE_QWEN_KEY" then qwen_key
       else if String.eqb name "VITE_DOBBY_KEY" then dobby_key
       else None;
     readAsDataURL := fun _ => inr "data:image/png;base64,iVBORw==";
     fetch := fun r =>
       if is_description_request r then description_answer
       else caption_answer;
     cannot_read := fun v p =>
       "Cannot read properties of "
       ++ (if match v with JNull => true | _ => false end
           then "null" else "undefined")
       ++ " (reading '" ++ p ++ "')" |}.

(** ** The other handlers and the rendered page *)

Definition setImageFile (f : option File) : M unit :=
  fun _ st =>
    ({| ui := {| imagePreview := imagePreview (ui st);
                 imageFile := f;
                 caption := caption (ui st);
                 loading := loading (ui st);
                 tone := tone (ui st) |};
        log := log st |}, inr tt).

Definition setImagePreview (u : string) : M unit :=
  fun _ st =>
    ({| ui := {| imagePreview := u;
                 imageFile := imageFile (ui st);
                 caption := caption (ui st);
                 loading := loading (ui st);
                 tone := tone (ui st) |};
        log := log st |}, inr tt).

Definition setTone (t : string) : M unit :=
  fun _ st =>
    ({| ui := {| imagePreview := imagePreview (ui st);
                 imageFile := imageFile (ui st);
                 caption := caption (ui st);
                 loading := loading (ui st);
                 tone := t |};
        log := log st |}, inr tt).

(** [files] is [e.target.files], a list of files or [null];
    [createObjectURL] is [URL.createObjectURL]. *)
Definition onFileChange (createObjectURL : File -> string)
  (files : option (list File)) : M unit :=
  match files with
  | Some (file :: _) =>
      setImageFile (Some file) ;;;
      setImagePreview (createObjectURL file) ;;;
      setCaption (JStr "")
  | _ => ret tt
  end.

(** The store after the user picked [files] in state [s]. *)
Definition pick (createObjectURL : File -> string)
  (files : option (list File)) (w : World) (s : State) : State :=
  ui (fst (onFileChange createObjectURL files w {| ui := s; log := [] |})).

(** The parts of the rendered page that depend on the state: the
    preview image (or the placeholder), the tone selector, the trigger
    and the caption output, which is rendered only for a truthy
    caption. *)
Record View : Type := {
  preview_src : option string;
  select_value : string;
  select_options : list (string * string);
  button_disabled : bool;
  button_text : string;
  caption_output : option value
}.

Definition render (s : State) : View :=
  {| preview_src :=
       if truthy (JStr (imagePreview s)) then Some (imagePreview s) else None;
     select_value := tone s;
     select_options := tones;
     button_disabled :=
       negb (match imageFile s with Some _ => true | None => false end)
       || loading s;
     button_text := if loading s then "Generating..." else "Generate Caption";
     caption_output := if truthy (caption s) then Some (caption s) else None |}.


(** The state with another output and loading flag. *)
Definition with_output (c : value) (l : bool) (s : State) : State :=
  {| imagePreview := imagePreview s; imageFile := imageFile s;
     caption := c; loading := l; tone := tone s |}.

(** [w] with another file reader. *)
Definition with_reader (rd : File -> exn + string) (w : World) : World :=
  {| env := env w; readAsDataURL := rd; fetch := fetch w;
     cannot_read := cannot_read w |}.

(** The description request is sent and [fetch] rejects with [e]. *)
Definition description_request_rejected (w : World) (f : File) (e : exn)
  : Prop :=
  exists k b64,
    env w "VITE_QWEN_KEY" = Some k /\ k <> "" /\
    readAsDataURL w f = inr b64 /\
    fetch w (qwen_request k b64) = inl e.

(** The caption request for [d] in tone [t] is sent and [fetch] rejects
    with [e]. *)
Definition caption_request_rejected (w : World) (t : string) (d : value)
  (e : exn) : Prop :=
  exists k,
    env w "VITE_DOBBY_KEY" = Some k /\ k <> "" /\
    fetch w (dobby_request k t d) = inl e.

(** * Properties *)

(** ** The monad's computations and the component state *)

Lemma store_eta (st : Store) : {| ui := ui st; log := log st ++ [] |} = st.
Proof. destruct st; simpl; now rewrite app_nil_r. Qed.

Lemma observer_ret {A} (a : A) : observer (ret a).
Proof. intros w st. unfold ret, run_fresh; simpl. now rewrite store_eta. Qed.

Lemma observer_throw {A} (e : exn) : observer (@throw A e).
Proof. intros w st. unfold throw, run_fresh; simpl. now rewrite store_eta. Qed.

Lemma observer_settle {A} (r : exn + A) : observer (settle r).
Proof. intros w st. unfold settle, run_fresh; simpl. now rewrite store_eta. Qed.

Lemma observer_record (e : event) : observer (record e).
Proof. intros w st. reflexivity. Qed.

Lemma observer_ask {A} (q : World -> exn + A) :
  observer (fun w st => (st, q w)).
Proof. intros w st. unfold run_fresh; simpl. now rewrite store_eta. Qed.

Lemma observer_member (v : value) (k : key) : observer (member v k).
Proof.
  intros w st. unfold member, run_fresh.
  destruct (nullish v); simpl; now rewrite store_eta.
Qed.

Lemma bind_run {A B} (m : M A) (k : A -> M B) (w : World) (st : Store) :
  observer m -> (forall a, observer (k a)) ->
  bind m k w st =
  match snd (run_fresh m w) with
  | inl e => ({| ui := ui st; log := log st ++ fst (run_fresh m w) |}, inl e)
  | inr a =>
      ({| ui := ui st;
          log := log st ++ fst (run_fresh m w) ++ fst (run_fresh (k a) w) |},
       snd (run_fresh (k a) w))
  end.
Proof.
  intros Hm Hk. unfold bind. rewrite (Hm w st).
  destruct (snd (run_fresh m w)) as [e | a]; [reflexivity | ].
  rewrite Hk. cbn [ui log]. now rewrite app_assoc.
Qed.

Lemma run_fresh_bind {A B} (m : M A) (k : A -> M B) (w : World) :
  observer m -> (forall a, observer (k a)) ->
  run_fresh (bind m k) w =
  match snd (run_fresh m w) with
  | inl e => (fst (run_fresh m w), inl e)
  | inr a => ((fst (run_fresh m w) ++ fst (run_fresh (k a) w))%list,
              snd (run_fresh (k a) w))
  end.
Proof.
  intros Hm Hk.
  change (run_fresh (bind m k) w)
    with (log (fst (bind m k w fresh)), snd (bind m k w fresh)).
  rewrite (bind_run m k w fresh Hm Hk).
  destruct (snd (run_fresh m w)); reflexivity.
Qed.

Lemma observer_bind {A B} (m : M A) (k : A -> M B) :
  observer m -> (forall a, observer (k a)) -> observer (bind m k).
Proof.
  intros Hm Hk w st.
  rewrite (bind_run m k w st Hm Hk), (run_fresh_bind m k w Hm Hk).
  destruct (snd (run_fresh m w)); reflexivity.
Qed.

Create HintDb observers.

#[local] Hint Resolve observer_ret observer_throw observer_settle
  observer_record observer_member : observers.

Ltac observe :=
  repeat first
    [ apply observer_bind; [ | intros ? ]
    | apply observer_ask
    | solve [ auto with observers ]
    | match goal with
      | |- observer (match ?x with _ => _ end) => destruct x
      | |- observer (if ?b then _ else _) => destruct b
      end ].

Lemma observer_import_meta_env (name : string) :
  observer (import_meta_env name).
Proof. unfold import_meta_env. observe. Qed.

Lemma observer_do_fetch (r : Request) : observer (do_fetch r).
Proof. unfold do_fetch. observe. Qed.

Lemma observer_fileToBase64 (f : File) : observer (fileToBase64 f).
Proof. unfold fileToBase64. observe. Qed.

Lemma observer_first_content (data : value) : observer (first_content data).
Proof. unfold first_content. observe. Qed.

#[local] Hint Resolve observer_import_meta_env observer_do_fetch
  observer_fileToBase64 observer_first_content : observers.

Lemma observer_analyzeImageWithQwen (f : File) :
  observer (analyzeImageWithQwen f).
Proof. unfold analyzeImageWithQwen. observe. Qed.

Lemma observer_generateCaptionWithDobby (t : string) (d : value) :
  observer (generateCaptionWithDobby t d).
Proof. unfold generateCaptionWithDobby. observe. Qed.

(** ** The two clients, case by case *)

Lemma description_run (w : World) (f : File) :
  run_fresh (analyzeImageWithQwen f) w =
  match env w "VITE_QWEN_KEY" with
  | None | Some EmptyString =>
      ([EnvRead "VITE_QWEN_KEY"], inl (Error "Qwen API key is missing"))
  | Some k =>
      match readAsDataURL w f with
      | inl e => ([EnvRead "VITE_QWEN_KEY"; FileRead f], inl e)
      | inr b64 =>
          ([EnvRead "VITE_QWEN_KEY"; FileRead f; Fetch (qwen_request k b64)],
           match fetch w (qwen_request k b64) with
           | inl e => inl e
           | inr r => description_from w r
           end)
      end
  end.
Proof.
  unfold run_fresh, analyzeImageWithQwen, import_meta_env, fileToBase64,
    do_fetch, first_content, member, record, settle, throw, ret, bind,
    description_from, content_of.
  cbn [fresh ui log fst snd app].
  destruct (env w "VITE_QWEN_KEY") as [[ | c k] | ]; try reflexivity.
  destruct (readAsDataURL w f) as [e | b64]; try reflexivity.
  cbn [fst snd ui log app].
  destruct (fetch w _) as [e | r]; try reflexivity.
  destruct (ok r); cbn [negb].
  - destruct (json r) as [e | data]; try reflexivity.
    destruct (nullish data); reflexivity.
  - destruct (text r); reflexivity.
Qed.

Lemma caption_run (w : World) (t : string) (d : value) :
  run_fresh (generateCaptionWithDobby t d) w =
  match env w "VITE_DOBBY_KEY" with
  | None | Some EmptyString =>
      ([EnvRead "VITE_DOBBY_KEY"], inl (Error "Dobby API key is missing"))
  | Some k =>
      ([EnvRead "VITE_DOBBY_KEY"; Fetch (dobby_request k t d)],
       match fetch w (dobby_request k t d) with
       | inl e => inl e
       | inr r => caption_from w r
       end)
  end.
Proof.
  unfold run_fresh, generateCaptionWithDobby, import_meta_env, do_fetch,
    first_content, member, record, settle, throw, ret, bind,
    caption_from, content_of.
  cbn [fresh ui log fst snd app].
  destruct (env w "VITE_DOBBY_KEY") as [[ | c k] | ]; try reflexivity.
  destruct (fetch w _) as [e | r]; try reflexivity.
  destruct (ok r); cbn [negb].
  - destruct (json r) as [e | data]; try reflexivity.
    destruct (nullish data); reflexivity.
  - reflexivity.
Qed.

(** The [try] block runs the clients one after the other, and the second
    only on what the first returns. *)
Lemma stages_run (w : World) (f : File) (t : string) :
  run_fresh (stages f t) w =
  match description_result w f with
  | inl e => (description_log w f, inl e)
  | inr d => ((description_log w f ++ caption_log w t d)%list,
              caption_result w t d)
  end.
Proof.
  unfold stages. rewrite run_fresh_bind.
  - reflexivity.
  - apply observer_analyzeImageWithQwen.
  - intros d. apply observer_generateCaptionWithDobby.
Qed.

Lemma observer_stages (f : File) (t : string) : observer (stages f t).
Proof.
  unfold stages. apply observer_bind.
  - apply observer_analyzeImageWithQwen.
  - intros d. apply observer_generateCaptionWithDobby.
Qed.

(** One run, from the click to the end of the handler. *)
Lemma handleGenerate_run (w : World) (s : State) (f : File) :
  imageFile s = Some f ->
  handleGenerate s w {| ui := s; log := [] |} =
  ({| ui := finish s (shown (snd (run_fresh (stages f (tone s)) w)));
      log := fst (run_fresh (stages f (tone s)) w) |}, inr tt).
Proof.
  intros Hf. unfold handleGenerate. rewrite Hf.
  unfold bind at 1 2 3. unfold setLoading at 1. unfold setCaption at 1.
  cbn [ui log imagePreview imageFile caption loading tone].
  unfold try_catch, bind. rewrite (observer_stages f (tone s) w).
  cbn [ui log app imagePreview imageFile caption loading tone].
  destruct (snd (run_fresh (stages f (tone s)) w)) as [e | c];
    unfold setCaption, setLoading, finish, shown;
    cbn [ui log imagePreview imageFile caption loading tone];
    now rewrite Hf.
Qed.

Lemma click_run (w : World) (s : State) (f : File) :
  imageFile s = Some f ->
  click w s =
  {| ui := finish s (shown (snd (run_fresh (stages f (tone s)) w)));
     log := fst (run_fresh (stages f (tone s)) w) |}.
Proof.
  intros Hf. unfold click. now rewrite (handleGenerate_run w s f Hf).
Qed.

(** ** Following the path and evaluating the chain *)

Lemma own_not_nullish (v : value) (k : key) (v' : value) :
  get_own v k = Some v' -> nullish v = false.
Proof. destruct v; simpl; intros H; try reflexivity; discriminate. Qed.

Lemma opt_own (v : value) (k : key) (v' : value) :
  get_own v k = Some v' -> opt v k = v'.
Proof.
  intros H. unfold opt, get.
  now rewrite (own_not_nullish v k v' H), H.
Qed.

Lemma opt_none (v : value) (k : key) :
  get_own v k = None -> opt v k = JUndefined.
Proof. intros H. unfold opt, get. rewrite H. now destruct (nullish v). Qed.

Lemma content_of_present (w : World) (data v : value) :
  at_path data content_path = Some v -> content_of w data = inr v.
Proof.
  unfold content_path, at_path, content_of.
  destruct (get_own data (Name "choices")) as [v1 | ] eqn:E1; [ | discriminate].
  destruct (get_own v1 (Index 0)) as [v2 | ] eqn:E2; [ | discriminate].
  destruct (get_own v2 (Name "message")) as [v3 | ] eqn:E3; [ | discriminate].
  destruct (get_own v3 (Name "content")) as [v4 | ] eqn:E4; [ | discriminate].
  intros H; injection H as <-.
  rewrite (own_not_nullish _ _ _ E1). unfold get at 1. rewrite E1.
  now rewrite (opt_own _ _ _ E2), (opt_own _ _ _ E3), (opt_own _ _ _ E4).
Qed.

Lemma content_of_absent (w : World) (data : value) :
  nullish data = false ->
  at_path data content_path = None -> content_of w data = inr JUndefined.
Proof.
  intros Hn. unfold content_path, at_path, content_of. rewrite Hn.
  unfold get at 1.
  destruct (get_own data (Name "choices")) as [v1 | ] eqn:E1; [ | reflexivity].
  destruct (get_own v1 (Index 0)) as [v2 | ] eqn:E2;
    [ rewrite (opt_own _ _ _ E2) | now rewrite (opt_none _ _ E2) ].
  destruct (get_own v2 (Name "message")) as [v3 | ] eqn:E3;
    [ rewrite (opt_own _ _ _ E3) | now rewrite (opt_none _ _ E3) ].
  destruct (get_own v3 (Name "content")) as [v4 | ] eqn:E4;
    [ discriminate | now rewrite (opt_none _ _ E4) ].
Qed.

Lemma content_of_nullish (w : World) (data : value) :
  nullish data = true ->
  content_of w data = inl (TypeError (cannot_read w data "choices")).
Proof. intros H. unfold content_of. now rewrite H. Qed.

(** ** What the clients do with an answer *)

Lemma description_result_of (w : World) (f : File) (r : Response) :
  description_endpoint_returns w f r ->
  description_result w f = description_from w r /\
  exists k b64,
    description_log w f =
    [EnvRead "VITE_QWEN_KEY"; FileRead f; Fetch (qwen_request k b64)].
Proof.
  intros (k & b64 & Hk & Hne & Hread & Hfetch).
  unfold description_result, description_log. rewrite description_run, Hk.
  destruct k as [ | c k]; [now elim Hne | ].
  rewrite Hread, Hfetch. split; [reflexivity | now exists (String c k), b64].
Qed.

Lemma caption_result_of (w : World) (t : string) (d : value) (r : Response) :
  caption_endpoint_returns w t d r ->
  caption_result w t d = caption_from w r /\
  exists k,
    caption_log w t d = [EnvRead "VITE_DOBBY_KEY"; Fetch (dobby_request k t d)].
Proof.
  intros (k & Hk & Hne & Hfetch).
  unfold caption_result, caption_log. rewrite caption_run, Hk.
  destruct k as [ | c k]; [now elim Hne | ].
  rewrite Hfetch. split; [reflexivity | now exists (String c k)].
Qed.

Lemma description_absent_key (w : World) (f : File) :
  absent (env w "VITE_QWEN_KEY") ->
  description_log w f = [EnvRead "VITE_QWEN_KEY"] /\
  description_result w f = inl (Error "Qwen API key is missing").
Proof.
  unfold description_log, description_result. rewrite description_run.
  intros [H | H]; rewrite H; split; reflexivity.
Qed.

Lemma caption_absent_key (w : World) (t : string) (d : value) :
  absent (env w "VITE_DOBBY_KEY") ->
  caption_log w t d = [EnvRead "VITE_DOBBY_KEY"] /\
  caption_result w t d = inl (Error "Dobby API key is missing").
Proof.
  unfold caption_log, caption_result. rewrite caption_run.
  intros [H | H]; rewrite H; split; reflexivity.
Qed.

Lemma fetches_app (l1 l2 : list event) :
  fetches (l1 ++ l2) = (fetches l1 ++ fetches l2)%list.
Proof.
  induction l1 as [ | e l1 IH]; [reflexivity | ].
  destruct e; simpl; now rewrite IH.
Qed.

(** Nothing the Description Client does is an event of the Caption
    Client. *)
Lemma description_log_own (w : World) (f : File) :
  existsb is_caption_event (description_log w f) = false.
Proof.
  unfold description_log. rewrite description_run.
  destruct (env w "VITE_QWEN_KEY") as [[ | c k] | ]; try reflexivity.
  destruct (readAsDataURL w f); reflexivity.
Qed.

(** The clients send nothing but the two requests of the pipeline. *)
Lemma description_fetches (w : World) (f : File) :
  fetches (description_log w f) = [] \/
  exists k b64, fetches (description_log w f) = [qwen_request k b64].
Proof.
  unfold description_log. rewrite description_run.
  destruct (env w "VITE_QWEN_KEY") as [[ | c k] | ]; try (now left).
  destruct (readAsDataURL w f) as [e | b64]; [now left | ].
  right. now exists (String c k), b64.
Qed.

Lemma caption_fetches (w : World) (t : string) (d : value) :
  fetches (caption_log w t d) = [] \/
  exists k, fetches (caption_log w t d) = [dobby_request k t d].
Proof.
  unfold caption_log. rewrite caption_run.
  destruct (env w "VITE_DOBBY_KEY") as [[ | c k] | ]; try (now left).
  right. now exists (String c k).
Qed.

(** ** A run end to end *)

(** Image and tone "brutal": one description request with the image
    embedded, one caption request with the description and a prompt that
    names the tone, and the caption in the output area. *)
Example brutal_run :
  click (sample_world (Some "qk") (Some "dk")
           (inr (reply (completion (JStr "A cat on a sofa"))))
           (inr (reply (completion (JStr "Furniture tester, unpaid.")))))
        with_photo =
  {| ui := finish with_photo (JStr "Furniture tester, unpaid.");
     log := [ EnvRead "VITE_QWEN_KEY"; FileRead photo;
              Fetch (qwen_request "qk" "data:image/png;base64,iVBORw==");
              EnvRead "VITE_DOBBY_KEY";
              Fetch (dobby_request "dk" "brutal" (JStr "A cat on a sofa")) ] |}.
Proof. reflexivity. Qed.

(** ** The pipeline *)

(** C1: when the description stage fails hard (credential absent, or a
    non-success status from the description endpoint), the Caption
    Client is never invoked: the log of the run holds no read of its
    credential and no request to its model, and the run ends in the
    failed state, with a prefixed error in the output area and loading
    cleared. *)
Theorem C1_description_failure_skips_caption
  (w : World) (s : State) (f : File) :
  imageFile s = Some f ->
  description_fails_hard w f ->
  existsb is_caption_event (log (click w s)) = false /\
  (exists e, description_result w f = inl e /\
             failed w f (tone s) e /\
             caption (ui (click w s)) =
               JStr ("Error: " ++ message_text (message e))) /\
  loading (ui (click w s)) = false.
Proof.
  intros Hf Hhard. rewrite (click_run w s f Hf), stages_run.
  assert (He : exists e, description_result w f = inl e).
  { destruct Hhard as [Habs | (r & Hr & Hok)].
    - destruct (description_absent_key w f Habs) as [_ ->]. eauto.
    - destruct (description_result_of w f r Hr) as [-> _].
      unfold description_from. rewrite Hok. cbn [negb].
      destruct (text r); eauto. }
  destruct He as [e He]. unfold failed. rewrite He.
  cbn [ui log fst snd finish loading caption].
  split; [apply description_log_own | ].
  split; [ | reflexivity].
  exists e. split; [reflexivity | ]. split; [now left | reflexivity].
Qed.

Lemma C1_witness :
  (existsb is_caption_event
     (log (click (sample_world None (Some "dk")
                    (inr (reply (completion (JStr "A cat"))))
                    (inr (reply (completion (JStr "Meow")))))
                 with_photo)) = false) /\
  (existsb is_caption_event
     (log (click (sample_world (Some "qk") (Some "dk")
                    (inr (refusal "quota exceeded"))
                    (inr (reply (completion (JStr "Meow")))))
                 with_photo)) = false).
Proof.
  split.
  - apply (C1_description_failure_skips_caption _ with_photo photo).
    + reflexivity.
    + left. left. reflexivity.
  - apply (C1_description_failure_skips_caption _ with_photo photo).
    + reflexivity.
    + right. exists (refusal "quota exceeded"). split; [ | reflexivity].
      exists "qk", "data:image/png;base64,iVBORw==".
      split; [reflexivity | split; [discriminate | split; reflexivity]].
Defined.

(** C2: a run started with an image present completes, in exactly one
    of two ways: both clients returned and the output area holds the
    caption the Caption Client returned, or a stage threw and the output
    area holds "Error: " followed by the message of what was thrown;
    never both.  Either way loading is false afterwards. *)
Theorem C2_one_terminal_state (w : World) (s : State) (f : File) :
  imageFile s = Some f ->
  snd (handleGenerate s w {| ui := s; log := [] |}) = inr tt /\
  loading (ui (click w s)) = false /\
  ((exists c, succeeded w f (tone s) c /\ caption (ui (click w s)) = c) \/
   (exists e, failed w f (tone s) e /\
              caption (ui (click w s)) =
                JStr ("Error: " ++ message_text (message e)))) /\
  ~ ((exists c, succeeded w f (tone s) c) /\
     (exists e, failed w f (tone s) e)).
Proof.
  intros Hf. rewrite (handleGenerate_run w s f Hf), (click_run w s f Hf).
  rewrite stages_run. unfold succeeded, failed.
  split; [reflexivity | ].
  destruct (description_result w f) as [e1 | d] eqn:Hd.
  - split; [reflexivity | ]. split.
    + right. exists e1. split; [now left | reflexivity].
    + intros [(c & d & Hd' & _) _]. discriminate.
  - destruct (caption_result w (tone s) d) as [e2 | c] eqn:Hc.
    + split; [reflexivity | ]. split.
      * right. exists e2. split; [ | reflexivity].
        right. exists d. now split.
      * intros [(c & d' & Hd' & Hc') _].
        injection Hd' as <-. rewrite Hc in Hc'. discriminate.
    + split; [reflexivity | ]. split.
      * left. exists c. split; [ | reflexivity]. exists d. now split.
      * intros [_ (e & [He | (d' & Hd' & Hc')])]; [discriminate | ].
        injection Hd' as <-. rewrite Hc in Hc'. discriminate.
Qed.

Lemma C2_witness :
  loading (ui (click (sample_world (Some "qk") (Some "dk")
                        (inr (reply (completion (JStr "A cat"))))
                        (inl (Thrown (Some "Failed to fetch"))))
                     with_photo)) = false.
Proof.
  apply (C2_one_terminal_state _ with_photo photo). reflexivity.
Defined.

(** ** Answers without the content field *)

(** X9: An answer of success whose body is a value other than [null] and
    holds nothing at [choices[0].message.content]: the Description Client
    returns its fallback, and the [try] block goes on to the Caption
    Client with the fallback as its description. *)
Lemma description_fallback_on_absent
  (w : World) (f : File) (r : Response) (data : value) :
  description_endpoint_returns w f r ->
  ok r = true -> json r = inr data ->
  nullish data = false -> at_path data content_path = None ->
  description_result w f = inr (JStr description_fallback) /\
  forall t,
    run_fresh (stages f t) w =
    ((description_log w f ++ caption_log w t (JStr description_fallback))%list,
     caption_result w t (JStr description_fallback)).
Proof.
  intros Hr Hok Hjson Hn Habs.
  assert (Hd : description_result w f = inr (JStr description_fallback)).
  { destruct (description_result_of w f r Hr) as [-> _].
    unfold description_from.
    now rewrite Hok, Hjson, (content_of_absent w data Hn Habs). }
  split; [exact Hd | ].
  intros t. now rewrite stages_run, Hd.
Qed.

(** X10: The same answer from the caption endpoint: the Caption Client
    returns its fallback. *)
Lemma caption_fallback_on_absent
  (w : World) (t : string) (d : value) (r : Response) (data : value) :
  caption_endpoint_returns w t d r ->
  ok r = true -> json r = inr data ->
  nullish data = false -> at_path data content_path = None ->
  caption_result w t d = inr (JStr caption_fallback).
Proof.
  intros Hr Hok Hjson Hn Habs.
  destruct (caption_result_of w t d r Hr) as [-> _].
  unfold caption_from.
  now rewrite Hok, Hjson, (content_of_absent w data Hn Habs).
Qed.

(** C3: the description endpoint answers with success and the body
    [null].  Nothing is found at [choices[0].message.content], yet the
    Description Client throws the [TypeError] of reading [choices] of
    [null]; the Caption Client is not invoked and the output area holds
    an error. *)
Theorem C3_null_description_body_fails :
  at_path JNull content_path = None /\
  description_result
    (sample_world (Some "qk") (Some "dk") (inr (reply JNull))
       (inr (reply (completion (JStr "Meow")))))
    photo =
  inl (TypeError "Cannot read properties of null (reading 'choices')") /\
  click (sample_world (Some "qk") (Some "dk") (inr (reply JNull))
           (inr (reply (completion (JStr "Meow")))))
        with_photo =
  {| ui := finish with_photo
             (JStr "Error: Cannot read properties of null (reading 'choices')");
     log := [ EnvRead "VITE_QWEN_KEY"; FileRead photo;
              Fetch (qwen_request "qk" "data:image/png;base64,iVBORw==") ] |}.
Proof. repeat split. Qed.

(** C4: the caption endpoint answers with success and the body [null].
    Nothing is found at [choices[0].message.content], yet the run fails:
    the output area holds an error, not the fallback caption. *)
Theorem C4_null_caption_body_fails :
  at_path JNull content_path = None /\
  caption_result
    (sample_world (Some "qk") (Some "dk")
       (inr (reply (completion (JStr "A cat on a sofa"))))
       (inr (reply JNull)))
    "brutal" (JStr "A cat on a sofa") =
  inl (TypeError "Cannot read properties of null (reading 'choices')") /\
  caption
    (ui (click (sample_world (Some "qk") (Some "dk")
                  (inr (reply (completion (JStr "A cat on a sofa"))))
                  (inr (reply JNull)))
               with_photo)) =
  JStr "Error: Cannot read properties of null (reading 'choices')" /\
  caption
    (ui (click (sample_world (Some "qk") (Some "dk")
                  (inr (reply (completion (JStr "A cat on a sofa"))))
                  (inr (reply JNull)))
               with_photo)) <>
  JStr caption_fallback.
Proof. repeat split. discriminate. Qed.

(** ** Configuration and remote errors *)

(** C5: with the caption credential absent and the description stage
    returning, the Caption Client throws its configuration error having
    sent nothing: the requests of the run are those of the Description
    Client, the output area holds exactly
    "Error: Dobby API key is missing", and loading is false. *)
Theorem C5_missing_caption_credential
  (w : World) (s : State) (f : File) (d : value) :
  imageFile s = Some f ->
  description_result w f = inr d ->
  absent (env w "VITE_DOBBY_KEY") ->
  caption_result w (tone s) d = inl (Error "Dobby API key is missing") /\
  fetches (caption_log w (tone s) d) = [] /\
  fetches (log (click w s)) = fetches (description_log w f) /\
  caption (ui (click w s)) = JStr "Error: Dobby API key is missing" /\
  loading (ui (click w s)) = false.
Proof.
  intros Hf Hd Habs.
  destruct (caption_absent_key w (tone s) d Habs) as [Hlog Hres].
  rewrite (click_run w s f Hf), stages_run, Hd, Hres, Hlog.
  cbn [ui log fst snd finish loading caption].
  rewrite fetches_app. cbn [fetches]. rewrite app_nil_r.
  repeat split.
Qed.

Lemma C5_witness :
  caption
    (ui (click (sample_world (Some "qk") None
                  (inr (reply (completion (JStr "A cat on a sofa"))))
                  (inr (reply (completion (JStr "Meow")))))
               with_photo)) =
  JStr "Error: Dobby API key is missing".
Proof.
  apply (C5_missing_caption_credential _ with_photo photo
           (JStr "A cat on a sofa")).
  - reflexivity.
  - reflexivity.
  - left. reflexivity.
Defined.

(** C7: on a non-success status the client throws an error whose
    message carries what the response says: the Description Client's
    message ends with the text of the response body, the Caption
    Client's with the status text of the response. *)
Theorem C7_remote_error_message
  (w : World) (f : File) (t : string) (d : value) (r : Response) :
  ok r = false ->
  (forall errorText,
     description_endpoint_returns w f r -> text r = inr errorText ->
     description_result w f = inl (Error ("Qwen API error: " ++ errorText))) /\
  (caption_endpoint_returns w t d r ->
   caption_result w t d = inl (Error ("Dobby API error: " ++ statusText r))).
Proof.
  intros Hok. split.
  - intros errorText Hr Htext.
    destruct (description_result_of w f r Hr) as [-> _].
    unfold description_from. now rewrite Hok, Htext.
  - intros Hr.
    destruct (caption_result_of w t d r Hr) as [-> _].
    unfold caption_from. now rewrite Hok.
Qed.

Lemma C7_witness :
  description_result
    (sample_world (Some "qk") (Some "dk")
       (inr (refusal "quota exceeded")) (inr (refusal "quota exceeded")))
    photo =
  inl (Error "Qwen API error: quota exceeded") /\
  caption_result
    (sample_world (Some "qk") (Some "dk")
       (inr (refusal "quota exceeded")) (inr (refusal "quota exceeded")))
    "brutal" (JStr "A cat") =
  inl (Error "Dobby API error: Internal Server Error").
Proof.
  destruct (C7_remote_error_message
              (sample_world (Some "qk") (Some "dk")
                 (inr (refusal "quota exceeded"))
                 (inr (refusal "quota exceeded")))
              photo "brutal" (JStr "A cat") (refusal "quota exceeded")
              eq_refl) as [Hq Hd].
  split.
  - apply Hq; [ | reflexivity].
    exists "qk", "data:image/png;base64,iVBORw==".
    split; [reflexivity | split; [discriminate | split; reflexivity]].
  - apply Hd. exists "dk".
    split; [reflexivity | split; [discriminate | reflexivity]].
Defined.

(** C8: without an image the handler returns at once: the store it
    was given comes back as it was, state and log alike. *)
Theorem C8_no_image_is_noop (w : World) (s : State) (st : Store) :
  imageFile s = None ->
  handleGenerate s w st = (st, inr tt) /\
  click w s = {| ui := s; log := [] |}.
Proof.
  intros Hf. unfold click, handleGenerate. rewrite Hf. split; reflexivity.
Qed.

Lemma C8_witness :
  click (sample_world (Some "qk") (Some "dk")
           (inr (reply (completion (JStr "A cat"))))
           (inr (reply (completion (JStr "Meow")))))
        initial =
  {| ui := initial; log := [] |}.
Proof.
  apply (C8_no_image_is_noop _ initial fresh). reflexivity.
Defined.

(** ** Requests *)

Lemma click_log (w : World) (s : State) :
  log (click w s) =
  match imageFile s with
  | None => []
  | Some f =>
      match description_result w f with
      | inl _ => description_log w f
      | inr d => (description_log w f ++ caption_log w (tone s) d)%list
      end
  end.
Proof.
  destruct (imageFile s) as [f | ] eqn:Hf.
  - rewrite (click_run w s f Hf), stages_run.
    now destruct (description_result w f).
  - unfold click, handleGenerate. now rewrite Hf.
Qed.

Lemma caption_fetches_not_description (w : World) (t : string) (d : value) :
  filter is_description_request (fetches (caption_log w t d)) = [].
Proof.
  destruct (caption_fetches w t d) as [-> | (k & ->)]; reflexivity.
Qed.

Lemma caption_fetches_erased (w : World) (t1 t2 : string) (d : value) :
  map erase_system_content (fetches (caption_log w t1 d)) =
  map erase_system_content (fetches (caption_log w t2 d)).
Proof.
  unfold caption_log. rewrite !caption_run.
  destruct (env w "VITE_DOBBY_KEY") as [[ | c k] | ]; reflexivity.
Qed.

(** C6: two runs in the same environment from states that differ only
    in the tone send the same description requests, and their requests
    are the same, one by one, once the content of the system message is
    left out. *)
Theorem C6_tone_reaches_only_the_caption_prompt
  (w : World) (s : State) (t1 t2 : string) :
  filter is_description_request (fetches (log (click w (with_tone t1 s)))) =
  filter is_description_request (fetches (log (click w (with_tone t2 s)))) /\
  map erase_system_content (fetches (log (click w (with_tone t1 s)))) =
  map erase_system_content (fetches (log (click w (with_tone t2 s)))) /\
  (forall k d,
     map content (messages (body (dobby_request k t1 d))) =
     [JStr (systemPrompt t1); d]).
Proof.
  rewrite !click_log. cbn [with_tone imageFile tone].
  destruct (imageFile s) as [f | ]; [ | repeat split].
  destruct (description_result w f) as [e | d]; [repeat split | ].
  rewrite !fetches_app, !filter_app, !map_app.
  rewrite !caption_fetches_not_description.
  rewrite (caption_fetches_erased w t1 t2 d).
  repeat split.
Qed.

Lemma fixed_sampling_qwen (base64Image : string) :
  fixed_sampling (qwen_payload base64Image).
Proof. reflexivity. Qed.

Lemma fixed_sampling_dobby (t : string) (d : value) :
  fixed_sampling (dobby_payload t d).
Proof. reflexivity. Qed.

(** C9: the payloads of both clients carry the same sampling
    parameters whatever the image, the description and the tone:
    max_tokens 4096, top_p 1, top_k 40, both penalties 0, temperature
    0.6; and so does every request a run sends. *)
Theorem C9_fixed_sampling_parameters :
  (forall base64Image, fixed_sampling (qwen_payload base64Image)) /\
  (forall t d, fixed_sampling (dobby_payload t d)) /\
  (forall w s,
     Forall (fun r => fixed_sampling (body r)) (fetches (log (click w s)))).
Proof.
  split; [exact fixed_sampling_qwen | ].
  split; [exact fixed_sampling_dobby | ].
  intros w s. rewrite click_log.
  destruct (imageFile s) as [f | ]; [ | constructor].
  assert (Hq : Forall (fun r => fixed_sampling (body r))
                 (fetches (description_log w f))).
  { destruct (description_fetches w f) as [-> | (k & b64 & ->)];
      repeat constructor. }
  destruct (description_result w f) as [e | d]; [exact Hq | ].
  rewrite fetches_app. apply Forall_app. split; [exact Hq | ].
  destruct (caption_fetches w (tone s) d) as [-> | (k & ->)];
    repeat constructor.
Qed.

(** C10: an answer of success whose [choices[0].message.content] is the
    empty string.  From the description endpoint, the Description Client
    returns its fallback; from the caption endpoint, the Caption Client
    returns the empty string, and the run ends with the empty string in
    the output area. *)
Theorem C10_empty_content_asymmetry
  (w : World) (f : File) (t : string) (d : value) (r : Response)
  (data : value) :
  ok r = true -> json r = inr data ->
  at_path data content_path = Some (JStr "") ->
  (description_endpoint_returns w f r ->
   description_result w f = inr (JStr description_fallback)) /\
  (caption_endpoint_returns w t d r ->
   caption_result w t d = inr (JStr "") /\
   forall s,
     imageFile s = Some f -> tone s = t ->
     description_result w f = inr d ->
     succeeded w f t (JStr "") /\
     caption (ui (click w s)) = JStr "" /\
     loading (ui (click w s)) = false).
Proof.
  intros Hok Hjson Hpath.
  pose proof (content_of_present w data (JStr "") Hpath) as Hc.
  split.
  - intros Hr. destruct (description_result_of w f r Hr) as [-> _].
    unfold description_from. now rewrite Hok, Hjson, Hc.
  - intros Hr.
    assert (Hres : caption_result w t d = inr (JStr "")).
    { destruct (caption_result_of w t d r Hr) as [-> _].
      unfold caption_from. now rewrite Hok, Hjson, Hc. }
    split; [exact Hres | ].
    intros s Hf Ht Hd.
    rewrite (click_run w s f Hf), stages_run, Ht, Hd, Hres.
    split; [ | split; reflexivity].
    exists d. now split.
Qed.

Lemma C10_witness :
  description_result
    (sample_world (Some "qk") (Some "dk")
       (inr (reply (completion (JStr ""))))
       (inr (reply (completion (JStr "")))))
    photo =
  inr (JStr description_fallback) /\
  caption
    (ui (click (sample_world (Some "qk") (Some "dk")
                  (inr (reply (completion (JStr ""))))
                  (inr (reply (completion (JStr "")))))
               with_photo)) =
  JStr "".
Proof.
  destruct (C10_empty_content_asymmetry
              (sample_world (Some "qk") (Some "dk")
                 (inr (reply (completion (JStr ""))))
                 (inr (reply (completion (JStr "")))))
              photo "brutal" (JStr description_fallback)
              (reply (completion (JStr ""))) (completion (JStr ""))
              eq_refl eq_refl eq_refl) as [Hq Hd].
  split.
  - apply Hq. exists "qk", "data:image/png;base64,iVBORw==".
    split; [reflexivity | split; [discriminate | split; reflexivity]].
  - apply Hd.
    + exists "dk". split; [reflexivity | split; [discriminate | reflexivity]].
    + reflexivity.
    + reflexivity.
    + reflexivity.
Defined.

(** * Further properties of the pipeline *)

(** ** Which client runs, and what is sent *)

Lemma caption_log_invoked (w : World) (t : string) (d : value) :
  existsb is_caption_event (caption_log w t d) = true.
Proof.
  unfold caption_log. rewrite caption_run.
  destruct (env w "VITE_DOBBY_KEY") as [[ | c k] | ]; reflexivity.
Qed.

(** X1: in a run on an image, the Caption Client is invoked exactly
    when the Description Client returns a description; whatever makes
    the Description Client throw (credential, file read, network, status,
    body) keeps the Caption Client from running. *)
Theorem caption_invoked_iff_description_returns
  (w : World) (s : State) (f : File) :
  imageFile s = Some f ->
  existsb is_caption_event (log (click w s)) = true <->
  exists d, description_result w f = inr d.
Proof.
  intros Hf. rewrite click_log, Hf.
  destruct (description_result w f) as [e | d].
  - rewrite description_log_own. split; [discriminate | ].
    intros [d Hd]. discriminate.
  - rewrite existsb_app, caption_log_invoked, orb_true_r.
    split; [eauto | reflexivity].
Qed.

Lemma caption_invoked_iff_description_returns_witness :
  exists d,
    description_result
      (sample_world (Some "qk") None
         (inr (reply (completion (JStr "A cat on a sofa"))))
         (inr (reply (completion (JStr "Meow")))))
      photo = inr d.
Proof.
  apply (caption_invoked_iff_description_returns _ with_photo photo eq_refl).
  reflexivity.
Defined.

(** X2: a run on an image sends at most two requests, in this order:
    the description request, built from the Qwen credential and the data
    URL the reader produced; then, only if the Description Client
    returned [d], the caption request, built from the Dobby credential,
    the tone of the state and [d] itself. *)
Theorem run_requests (w : World) (s : State) (f : File) :
  imageFile s = Some f ->
  fetches (log (click w s)) = [] \/
  exists k b64,
    env w "VITE_QWEN_KEY" = Some k /\ k <> "" /\
    readAsDataURL w f = inr b64 /\
    (fetches (log (click w s)) = [qwen_request k b64] \/
     exists k' d,
       env w "VITE_DOBBY_KEY" = Some k' /\ k' <> "" /\
       description_result w f = inr d /\
       fetches (log (click w s)) =
         [qwen_request k b64; dobby_request k' (tone s) d]).
Proof.
  intros Hf. rewrite click_log, Hf.
  unfold description_result, description_log, caption_log.
  rewrite description_run.
  destruct (env w "VITE_QWEN_KEY") as [[ | c k] | ] eqn:Hk;
    try (left; reflexivity).
  destruct (readAsDataURL w f) as [e | b64] eqn:Hread;
    [left; reflexivity | ].
  right. exists (String c k), b64.
  split; [reflexivity | ]. split; [discriminate | ]. split; [reflexivity | ].
  cbn [fst snd].
  destruct (match fetch w (qwen_request (String c k) b64) with
            | inl e => inl e
            | inr r => description_from w r
            end) as [e | d]; [left; reflexivity | ].
  rewrite caption_run.
  destruct (env w "VITE_DOBBY_KEY") as [[ | c' k'] | ] eqn:Hk';
    try (left; reflexivity).
  right. exists (String c' k'), d.
  split; [reflexivity | ]. split; [discriminate | ]. split; reflexivity.
Qed.

Lemma run_requests_witness :
  fetches
    (log (click (sample_world (Some "qk") (Some "dk")
                   (inr (reply (completion (JStr "A cat on a sofa"))))
                   (inr (refusal "busy")))
                with_photo)) =
  [ qwen_request "qk" "data:image/png;base64,iVBORw==";
    dobby_request "dk" "brutal" (JStr "A cat on a sofa") ].
Proof.
  destruct (run_requests
              (sample_world (Some "qk") (Some "dk")
                 (inr (reply (completion (JStr "A cat on a sofa"))))
                 (inr (refusal "busy")))
              with_photo photo eq_refl) as [H | _].
  - discriminate H.
  - reflexivity.
Defined.

(** X3: every request of a run is a POST to the one endpoint with the
    JSON headers, and its bearer token is the credential of its own
    client: the Qwen key on a request to the Qwen model, the Dobby key
    on a request to the Dobby model. *)
Theorem requests_carry_own_credential (w : World) (s : State) :
  Forall
    (fun r =>
       url r = endpoint /\ method r = "POST" /\
       exists k,
         headers r =
           [ ("Accept", "application/json");
             ("Content-Type", "application/json");
             ("Authorization", "Bearer " ++ k) ] /\
         env w (if is_description_request r
                then "VITE_QWEN_KEY" else "VITE_DOBBY_KEY") = Some k)
    (fetches (log (click w s))).
Proof.
  rewrite click_log.
  destruct (imageFile s) as [f | ]; [ | constructor].
  unfold description_result, description_log, caption_log.
  rewrite description_run.
  destruct (env w "VITE_QWEN_KEY") as [[ | c k] | ] eqn:Hk;
    try (repeat constructor).
  destruct (readAsDataURL w f) as [e | b64]; [repeat constructor | ].
  assert (Hq : exists k0,
             headers (qwen_request (String c k) b64) =
               [ ("Accept", "application/json");
                 ("Content-Type", "application/json");
                 ("Authorization", "Bearer " ++ k0) ] /\
             env w "VITE_QWEN_KEY" = Some k0)
    by (exists (String c k); now split).
  cbn [fst snd].
  destruct (match fetch w (qwen_request (String c k) b64) with
            | inl e => inl e
            | inr r => description_from w r
            end) as [e | d]; [repeat constructor; exact Hq | ].
  rewrite caption_run.
  destruct (env w "VITE_DOBBY_KEY") as [[ | c' k'] | ] eqn:Hk';
    repeat constructor; try exact Hq.
  exists (String c' k'). now split.
Qed.

(** ** Failures of the environment *)

(** X4: when the file cannot be read, the run ends after the read:
    nothing is sent, and the output is "Error: " followed by the message
    of the rejection, which for the event of a [FileReader], an object
    with no [message], is the text "undefined". *)
Theorem read_failure_ends_run
  (w : World) (s : State) (f : File) (k : string) (e : exn) :
  imageFile s = Some f ->
  env w "VITE_QWEN_KEY" = Some k -> k <> "" ->
  readAsDataURL w f = inl e ->
  log (click w s) = [EnvRead "VITE_QWEN_KEY"; FileRead f] /\
  caption (ui (click w s)) = JStr ("Error: " ++ message_text (message e)) /\
  (message e = None -> caption (ui (click w s)) = JStr "Error: undefined") /\
  loading (ui (click w s)) = false.
Proof.
  intros Hf Hk Hne Hread.
  assert (Hrun : run_fresh (analyzeImageWithQwen f) w =
                 ([EnvRead "VITE_QWEN_KEY"; FileRead f], inl e)).
  { rewrite description_run, Hk.
    destruct k; [now elim Hne | ]. now rewrite Hread. }
  rewrite (click_run w s f Hf), stages_run.
  unfold description_result, description_log. rewrite Hrun.
  cbn [fst snd ui log finish caption loading shown].
  repeat split. intros ->. reflexivity.
Qed.

Lemma read_failure_ends_run_witness :
  caption
    (ui (click (with_reader (fun _ => inl (Thrown None))
                  (sample_world (Some "qk") (Some "dk")
                     (inr (reply (completion (JStr "A cat"))))
                     (inr (reply (completion (JStr "Meow"))))))
               with_photo)) =
  JStr "Error: undefined".
Proof.
  apply (read_failure_ends_run _ with_photo photo "qk" (Thrown None)).
  - reflexivity.
  - reflexivity.
  - discriminate.
  - reflexivity.
  - reflexivity.
Defined.

(** X5: when [fetch] rejects, at either stage, the run ends in the
    failed state with the message of the rejection; after a rejection of
    the description request the Caption Client reads no credential and
    sends nothing. *)
Theorem network_failure_ends_run
  (w : World) (s : State) (f : File) (e : exn) :
  imageFile s = Some f ->
  (description_request_rejected w f e \/
   exists d, description_result w f = inr d /\
             caption_request_rejected w (tone s) d e) ->
  failed w f (tone s) e /\
  caption (ui (click w s)) = JStr ("Error: " ++ message_text (message e)) /\
  loading (ui (click w s)) = false /\
  (description_request_rejected w f e ->
   existsb is_caption_event (log (click w s)) = false).
Proof.
  intros Hf Hrej. rewrite (click_run w s f Hf), stages_run. unfold failed.
  destruct Hrej as [Hq | (d & Hd & k & Hk & Hne & Hfetch)].
  - assert (He : description_result w f = inl e).
    { destruct Hq as (k & b64 & Hk & Hne & Hread & Hfetch).
      unfold description_result. rewrite description_run, Hk.
      destruct k; [now elim Hne | ]. now rewrite Hread, Hfetch. }
    rewrite He. cbn [fst snd ui log finish caption loading shown].
    split; [now left | ]. split; [reflexivity | ]. split; [reflexivity | ].
    intros _. apply description_log_own.
  - assert (He : caption_result w (tone s) d = inl e).
    { unfold caption_result. rewrite caption_run, Hk.
      destruct k; [now elim Hne | ]. now rewrite Hfetch. }
    rewrite Hd, He. cbn [fst snd ui log finish caption loading shown].
    split; [right; exists d; now split | ].
    split; [reflexivity | ]. split; [reflexivity | ].
    intros (k0 & b64 & Hk0 & Hne0 & Hread & Hfetch0).
    unfold description_result in Hd. rewrite description_run, Hk0 in Hd.
    destruct k0; [now elim Hne0 | ].
    rewrite Hread, Hfetch0 in Hd. discriminate.
Qed.

Lemma network_failure_ends_run_witness :
  caption
    (ui (click (sample_world (Some "qk") (Some "dk")
                  (inr (reply (completion (JStr "A cat"))))
                  (inl (Thrown (Some "Failed to fetch"))))
               with_photo)) =
  JStr "Error: Failed to fetch".
Proof.
  apply (network_failure_ends_run _ with_photo photo
           (Thrown (Some "Failed to fetch")) eq_refl).
  right. exists (JStr "A cat"). split; [reflexivity | ].
  exists "dk". split; [reflexivity | split; [discriminate | reflexivity]].
Defined.

(** X6: an answer of success whose body does not parse is not treated
    as a missing field: the rejection of [response.json()] is thrown by
    the client, and no fallback text is used. *)
Theorem unparseable_body_is_thrown
  (w : World) (f : File) (t : string) (d : value) (r : Response) (e : exn) :
  ok r = true -> json r = inl e ->
  (description_endpoint_returns w f r -> description_result w f = inl e) /\
  (caption_endpoint_returns w t d r -> caption_result w t d = inl e).
Proof.
  intros Hok Hjson. split; intros Hr.
  - destruct (description_result_of w f r Hr) as [-> _].
    unfold description_from. now rewrite Hok, Hjson.
  - destruct (caption_result_of w t d r Hr) as [-> _].
    unfold caption_from. now rewrite Hok, Hjson.
Qed.

(** X7: an answer of success whose body is [null] makes either client
    throw the [TypeError] of reading [choices], in every environment. *)
Theorem null_body_is_type_error
  (w : World) (f : File) (t : string) (d : value) (r : Response)
  (data : value) :
  ok r = true -> json r = inr data -> nullish data = true ->
  (description_endpoint_returns w f r ->
   description_result w f =
     inl (TypeError (cannot_read w data "choices"))) /\
  (caption_endpoint_returns w t d r ->
   caption_result w t d = inl (TypeError (cannot_read w data "choices"))).
Proof.
  intros Hok Hjson Hn. split; intros Hr.
  - destruct (description_result_of w f r Hr) as [-> _].
    unfold description_from.
    now rewrite Hok, Hjson, (content_of_nullish w data Hn).
  - destruct (caption_result_of w t d r Hr) as [-> _].
    unfold caption_from.
    now rewrite Hok, Hjson, (content_of_nullish w data Hn).
Qed.

Lemma unparseable_body_is_thrown_witness :
  description_result
    (sample_world (Some "qk") (Some "dk")
       (inr {| ok := true; statusText := "OK"; text := inr "<html>";
               json := inl (Thrown (Some "Unexpected token <")) |})
       (inr (reply (completion (JStr "Meow")))))
    photo =
  inl (Thrown (Some "Unexpected token <")).
Proof.
  apply (unparseable_body_is_thrown _ photo "brutal" JNull
           {| ok := true; statusText := "OK"; text := inr "<html>";
              json := inl (Thrown (Some "Unexpected token <")) |}
           (Thrown (Some "Unexpected token <")) eq_refl eq_refl).
  exists "qk", "data:image/png;base64,iVBORw==".
  split; [reflexivity | split; [discriminate | split; reflexivity]].
Defined.

Lemma null_body_is_type_error_witness :
  caption_result
    (sample_world (Some "qk") (Some "dk")
       (inr (reply (completion (JStr "A cat")))) (inr (reply JNull)))
    "witty" (JStr "A cat") =
  inl (TypeError "Cannot read properties of null (reading 'choices')").
Proof.
  apply (null_body_is_type_error
           (sample_world (Some "qk") (Some "dk")
              (inr (reply (completion (JStr "A cat")))) (inr (reply JNull)))
           photo "witty" (JStr "A cat")
           (reply JNull) JNull eq_refl eq_refl eq_refl).
  exists "dk". split; [reflexivity | split; [discriminate | reflexivity]].
Defined.

(** ** What the clients return *)

(** X8: when the body of an answer of success holds [c] at
    [choices[0].message.content], the Description Client returns [c] if it
    is truthy and its fallback otherwise ([null], [false], [0], the empty
    string), and the Caption Client returns [c] unless it is [null] or
    [undefined]; a value of any JSON type is passed on as it is. *)
Theorem content_present_results
  (w : World) (f : File) (t : string) (d : value) (r : Response)
  (data c : value) :
  ok r = true -> json r = inr data ->
  at_path data content_path = Some c ->
  (description_endpoint_returns w f r ->
   description_result w f =
     inr (if truthy c then c else JStr description_fallback)) /\
  (caption_endpoint_returns w t d r ->
   caption_result w t d =
     inr (if nullish c then JStr caption_fallback else c)).
Proof.
  intros Hok Hjson Hpath.
  pose proof (content_of_present w data c Hpath) as Hc.
  split; intros Hr.
  - destruct (description_result_of w f r Hr) as [-> _].
    unfold description_from. now rewrite Hok, Hjson, Hc.
  - destruct (caption_result_of w t d r Hr) as [-> _].
    unfold caption_from. now rewrite Hok, Hjson, Hc.
Qed.

Lemma content_present_results_witness :
  description_result
    (sample_world (Some "qk") (Some "dk")
       (inr (reply (completion JNull))) (inr (reply (completion JNull))))
    photo =
  inr (JStr "A visually interesting image") /\
  caption_result
    (sample_world (Some "qk") (Some "dk")
       (inr (reply (completion JNull))) (inr (reply (completion JNull))))
    "witty" (JStr "A visually interesting image") =
  inr (JStr "No caption generated.").
Proof.
  destruct (content_present_results
              (sample_world (Some "qk") (Some "dk")
                 (inr (reply (completion JNull)))
                 (inr (reply (completion JNull))))
              photo "witty" (JStr "A visually interesting image")
              (reply (completion JNull)) (completion JNull) JNull
              eq_refl eq_refl eq_refl) as [Hq Hd].
  split.
  - apply Hq. exists "qk", "data:image/png;base64,iVBORw==".
    split; [reflexivity | split; [discriminate | split; reflexivity]].
  - apply Hd. exists "dk".
    split; [reflexivity | split; [discriminate | reflexivity]].
Defined.

Lemma description_fallback_on_absent_witness :
  description_result
    (sample_world (Some "qk") (Some "dk")
       (inr (reply (JObj [("error", JStr "overloaded")])))
       (inr (reply (completion (JStr "Meow")))))
    photo =
  inr (JStr "A visually interesting image").
Proof.
  apply (description_fallback_on_absent _ photo
           (reply (JObj [("error", JStr "overloaded")]))
           (JObj [("error", JStr "overloaded")])).
  - exists "qk", "data:image/png;base64,iVBORw==".
    split; [reflexivity | split; [discriminate | split; reflexivity]].
  - reflexivity.
  - reflexivity.
  - reflexivity.
  - reflexivity.
Defined.

Lemma caption_fallback_on_absent_witness :
  caption_result
    (sample_world (Some "qk") (Some "dk")
       (inr (reply (completion (JStr "A cat"))))
       (inr (reply (JObj [("choices", JArr [])]))))
    "witty" (JStr "A cat") =
  inr (JStr "No caption generated.").
Proof.
  apply (caption_fallback_on_absent _ "witty" (JStr "A cat")
           (reply (JObj [("choices", JArr [])]))
           (JObj [("choices", JArr [])])).
  - exists "dk". split; [reflexivity | split; [discriminate | reflexivity]].
  - reflexivity.
  - reflexivity.
  - reflexivity.
  - reflexivity.
Defined.

Lemma description_from_truthy (w : World) (r : Response) (d : value) :
  description_from w r = inr d -> truthy d = true.
Proof.
  unfold description_from.
  destruct (ok r); cbn [negb]; [ | destruct (text r); discriminate].
  destruct (json r) as [e | data]; [discriminate | ].
  destruct (content_of w data) as [e | c]; [discriminate | ].
  intros H; injection H as <-. unfold or_else.
  destruct (truthy c) eqn:Hc; [exact Hc | reflexivity].
Qed.

Lemma caption_from_not_nullish (w : World) (r : Response) (c : value) :
  caption_from w r = inr c -> nullish c = false.
Proof.
  unfold caption_from.
  destruct (ok r); cbn [negb]; [ | discriminate].
  destruct (json r) as [e | data]; [discriminate | ].
  destruct (content_of w data) as [e | c0]; [discriminate | ].
  intros H; injection H as <-. unfold coalesce.
  destruct (nullish c0) eqn:Hc; [reflexivity | exact Hc].
Qed.

(** X11: whatever the environment answers, a description the
    Description Client returns is truthy: the Caption Client is never
    handed [undefined], [null], [false], [0] or the empty string, and its
    request always has a user message with content. *)
Theorem description_is_never_falsy (w : World) (f : File) (d : value) :
  description_result w f = inr d -> truthy d = true.
Proof.
  unfold description_result. rewrite description_run.
  destruct (env w "VITE_QWEN_KEY") as [[ | c k] | ]; try discriminate.
  destruct (readAsDataURL w f) as [e | b64]; [discriminate | ].
  cbn [snd]. destruct (fetch w _) as [e | r]; [discriminate | ].
  apply description_from_truthy.
Qed.

Lemma description_is_never_falsy_witness :
  truthy
    (match description_result
             (sample_world (Some "qk") (Some "dk")
                (inr (reply (completion (JNum 0))))
                (inr (reply (completion (JStr "Meow")))))
             photo with
     | inr d => d
     | inl _ => JUndefined
     end) = true.
Proof.
  apply (description_is_never_falsy
           (sample_world (Some "qk") (Some "dk")
              (inr (reply (completion (JNum 0))))
              (inr (reply (completion (JStr "Meow")))))
           photo).
  reflexivity.
Defined.

(** X12: after a run on an image the output is never [null] or
    [undefined]: it is an error text, or a value of the caption endpoint
    that is neither, or the fallback caption. *)
Theorem output_is_never_nullish (w : World) (s : State) (f : File) :
  imageFile s = Some f ->
  nullish (caption (ui (click w s))) = false.
Proof.
  intros Hf. rewrite (click_run w s f Hf), stages_run.
  destruct (description_result w f) as [e | d]; [reflexivity | ].
  unfold caption_result. rewrite caption_run.
  destruct (env w "VITE_DOBBY_KEY") as [[ | c k] | ]; try reflexivity.
  cbn [snd finish ui caption].
  destruct (fetch w _) as [e | r]; [reflexivity | ].
  destruct (caption_from w r) as [e | c0] eqn:Hc; [reflexivity | ].
  exact (caption_from_not_nullish w r c0 Hc).
Qed.

Lemma output_is_never_nullish_witness :
  nullish
    (caption
       (ui (click (sample_world (Some "qk") (Some "dk")
                     (inr (reply (completion (JStr "A cat"))))
                     (inr (reply (completion JNull))))
                  with_photo))) = false.
Proof.
  apply (output_is_never_nullish _ with_photo photo). reflexivity.
Defined.

(** ** The component state around a run *)

(** X13: a run changes nothing but the output and the loading flag:
    the selected image, its preview and the tone are those of the state
    the handler was invoked in, with or without an image. *)
Theorem run_keeps_selection (w : World) (s : State) :
  imagePreview (ui (click w s)) = imagePreview s /\
  imageFile (ui (click w s)) = imageFile s /\
  tone (ui (click w s)) = tone s.
Proof.
  destruct (imageFile s) as [f | ] eqn:Hf.
  - rewrite (click_run w s f Hf). cbn [ui finish imagePreview imageFile tone].
    now rewrite Hf.
  - unfold click, handleGenerate. rewrite Hf. cbn [fst ret ui]. now rewrite Hf.
Qed.

(** X14: the outcome of a run on an image does not depend on the output
    and the loading flag it starts from: an earlier caption or error is
    always replaced.  In particular a second run in the same environment
    ends in the same store as the first. *)
Theorem run_forgets_previous_output
  (w : World) (s : State) (f : File) (c : value) (l : bool) :
  imageFile s = Some f ->
  click w (with_output c l s) = click w s /\
  click w (ui (click w s)) = click w s.
Proof.
  intros Hf. split.
  - now rewrite (click_run w (with_output c l s) f Hf), (click_run w s f Hf).
  - rewrite (click_run w s f Hf). cbn [ui].
    now rewrite (click_run w (finish s _) f Hf).
Qed.

Lemma run_forgets_previous_output_witness :
  click (sample_world (Some "qk") (Some "dk")
           (inr (reply (completion (JStr "A cat"))))
           (inr (reply (completion (JStr "Meow")))))
        (with_output (JStr "Error: stale") true with_photo) =
  click (sample_world (Some "qk") (Some "dk")
           (inr (reply (completion (JStr "A cat"))))
           (inr (reply (completion (JStr "Meow")))))
        with_photo.
Proof.
  apply (run_forgets_previous_output _ with_photo photo). reflexivity.
Defined.





(** ** Picking a file *)

(** X17: generating after a file was picked runs the pipeline on the
    first picked file, in the tone of the state: the log and the output
    are those of any run on that file in that tone, whatever image,
    preview and output were there before. *)
Theorem generate_after_pick
  (createObjectURL : File -> string) (w : World) (s s' : State)
  (f : File) (rest : list File) :
  imageFile s' = Some f -> tone s' = tone s ->
  log (click w (pick createObjectURL (Some (f :: rest)) w s)) =
    log (click w s') /\
  caption (ui (click w (pick createObjectURL (Some (f :: rest)) w s))) =
    caption (ui (click w s')) /\
  imagePreview (ui (click w (pick createObjectURL (Some (f :: rest)) w s))) =
    createObjectURL f.
Proof.
  intros Hf Ht.
  rewrite (click_run w s' f Hf), Ht.
  rewrite (click_run w (pick createObjectURL (Some (f :: rest)) w s) f eq_refl).
  repeat split.
Qed.

Lemma generate_after_pick_witness :
  log (click (sample_world (Some "qk") None
                (inr (reply (completion (JStr "A cat"))))
                (inr (reply (completion (JStr "Meow")))))
             (pick (fun f => "blob:" ++ file_name f) (Some [photo])
                (sample_world (Some "qk") None
                   (inr (reply (completion (JStr "A cat"))))
                   (inr (reply (completion (JStr "Meow")))))
                (with_tone "brutal" initial))) =
  log (click (sample_world (Some "qk") None
                (inr (reply (completion (JStr "A cat"))))
                (inr (reply (completion (JStr "Meow")))))
             with_photo).
Proof.
  apply (generate_after_pick (fun f => "blob:" ++ file_name f) _
           (with_tone "brutal" initial) with_photo photo []).
  - reflexivity.
  - reflexivity.
Defined.

(** X18: a file dialog that yields no file ([null] or an empty list)
    leaves the store as it was.  Picking a file hides the previous
    caption or error and keeps the tone and the loading flag, so the
    trigger is enabled exactly when no run is marked as loading. *)
Theorem page_after_pick
  (createObjectURL : File -> string) (w : World) (s : State) (st : Store) :
  onFileChange createObjectURL None w st = (st, inr tt) /\
  onFileChange createObjectURL (Some []) w st = (st, inr tt) /\
  forall f rest,
    caption_output (render (pick createObjectURL (Some (f :: rest)) w s)) =
      None /\
    button_disabled (render (pick createObjectURL (Some (f :: rest)) w s)) =
      loading s /\
    select_value (render (pick createObjectURL (Some (f :: rest)) w s)) =
      tone s /\
    imageFile (pick createObjectURL (Some (f :: rest)) w s) = Some f.
Proof. repeat split. Qed.

(** ** The tone in the prompt *)

Lemma list_ascii_of_string_append (a b : string) :
  list_ascii_of_string (a ++ b) =
  (list_ascii_of_string a ++ list_ascii_of_string b)%list.
Proof. induction a as [ | c a IH]; [reflexivity | simpl; now rewrite IH]. Qed.

Lemma list_ascii_of_string_inj (a b : string) :
  list_ascii_of_string a = list_ascii_of_string b -> a = b.
Proof.
  intros H.
  rewrite <- (string_of_list_ascii_of_string a).
  rewrite <- (string_of_list_ascii_of_string b).
  now rewrite H.
Qed.

Lemma systemPrompt_inj (t1 t2 : string) :
  systemPrompt t1 = systemPrompt t2 -> t1 = t2.
Proof.
  unfold systemPrompt. intros H.
  apply (f_equal list_ascii_of_string) in H.
  rewrite !list_ascii_of_string_append in H.
  apply app_inv_head in H. apply app_inv_head in H.
  apply app_inv_tail in H.
  now apply list_ascii_of_string_inj.
Qed.

(** X19: the tone is inserted into the prompt as it is, and different
    tones give different caption requests for the same credential and
    description. *)
Theorem tone_determines_caption_request
  (k t1 t2 : string) (d : value) :
  t1 <> t2 -> dobby_request k t1 d <> dobby_request k t2 d.
Proof.
  intros Hne Heq. apply Hne. apply systemPrompt_inj.
  exact (f_equal
           (fun r =>
              match map content (messages (body r)) with
              | JStr p :: _ => p
              | _ => EmptyString
              end) Heq).
Qed.

Lemma tone_determines_caption_request_witness :
  dobby_request "dk" "witty" (JStr "A cat") <>
  dobby_request "dk" "brutal" (JStr "A cat").
Proof.
  apply tone_determines_caption_request. discriminate.
Defined.
